(** * UBoard: the comment/post controller

    A shallow embedding of [server/controllers/v1/comment.ts]
    (class [CommentController]) and the properties of its six methods.

    The controller talks to a Sequelize model it receives in its
    constructor.  The table behind that model is a finite map from primary
    key to column values; every method is a computation over that table
    which settles like the promise the method returns.

    The database can fail where the controller provides for it: a
    [save] may throw (both calls stand in a [try]/[catch]) and a
    [create] may return no row (the result is tested).  Which of the two
    happens is an argument of the method.  Lookups and [destroy], which
    the controller awaits without a handler, are taken to succeed. *)

From stdpp Require Import base option list sorting gmap strings.
From Stdlib Require Import ZArith Lia.

Local Open Scope string_scope.
Local Open Scope Z_scope.

(** ** Data model *)

(** The columns of a row other than its primary key.  The source reads
    and writes [title], [body], [location], [capacity], [feedbackScore]
    and [UserId], and orders by [createdAt].  [capacity] and
    [feedbackScore] are JavaScript numbers that hold integers; the one
    arithmetic the controller does on them, the addition in [vote],
    rounds like a number ([to_number] below). *)
Record Post : Type := {
  title : string;
  body : string;
  location : string;
  capacity : Z;
  feedbackScore : Z;
  UserId : string;
  createdAt : Z
}.

(** A model instance as the ORM hands it to the controller: the primary
    key it was loaded under and its column values. *)
Record Instance : Type := {
  pk : string;
  dataValues : Post
}.

(** The [data] member of a response, [{ result?, count?, message? }]. *)
Record Data (R : Type) : Type := {
  result : option R;
  count : option Z;
  message : option string
}.
Arguments result {R} _.
Arguments count {R} _.
Arguments message {R} _.

(** A response [{ status, data? }]. *)
Record Response (R : Type) : Type := {
  status : Z;
  data : option (Data R)
}.
Arguments status {R} _.
Arguments data {R} _.

Definition with_message {R} (st : Z) (msg : string) : Response R :=
  {| status := st;
     data := Some {| result := None; count := None; message := Some msg |} |}.

Definition with_result {R} (st : Z) (r : R) : Response R :=
  {| status := st;
     data := Some {| result := Some r; count := None; message := None |} |}.

(** [amount: 1 | -1] *)
Inductive Amount : Type := Plus1 | Minus1.

Definition amount_value (a : Amount) : Z :=
  match a with Plus1 => 1 | Minus1 => -1 end.

(** The maximum number of results to return. *)
Definition MAX_RESULTS : Z := 50.

(** ** JavaScript truthiness of optional arguments *)

(** [!x] for [x?: string]: [undefined] and the empty string are falsy. *)
Definition truthy_string (x : option string) : bool :=
  match x with
  | Some s => negb (String.eqb s "")
  | None => false
  end.

(** [!x] for [x?: number]: [undefined] and zero are falsy. *)
Definition truthy_number (x : option Z) : bool :=
  match x with
  | Some n => negb (n =? 0)
  | None => false
  end.

(** [x == undefined] negated, for [x?: number]. *)
Definition is_defined (x : option Z) : bool :=
  match x with
  | Some _ => true
  | None => false
  end.

(** [x || d] on strings. *)
Definition or_string (x : option string) (d : string) : string :=
  match x with
  | Some s => if String.eqb s "" then d else s
  | None => d
  end.

(** [x || d] on numbers. *)
Definition or_number (x : option Z) (d : Z) : Z :=
  match x with
  | Some n => if n =? 0 then d else n
  | None => d
  end.

(** ** JavaScript numbers that hold integers *)

(** A number is an IEEE 754 double: it holds every integer up to 2^53 in
    absolute value, and beyond that only the integers with 53
    significant bits. *)
Definition MAX_EXACT : Z := 9007199254740992.

(** The number nearest to an integer, ties to the even significand: what
    an arithmetic operation on numbers returns for an exact result [z].
    Adding 1 or -1 to a number never leaves the finite numbers, so
    infinities are not needed. *)
Definition to_number (z : Z) : Z :=
  let a := Z.abs z in
  if a <=? MAX_EXACT then z
  else
    let e := Z.log2 a - 52 in
    let q := a / 2 ^ e in
    let r := a mod 2 ^ e in
    let half := 2 ^ (e - 1) in
    let q' := if r <? half then q
              else if half <? r then q + 1
              else if Z.even q then q else q + 1 in
    Z.sgn z * (q' * 2 ^ e).

(** [x + y] on numbers that hold integers. *)
Definition number_add (x y : Z) : Z := to_number (x + y).

(** ** Promises over the table *)

(** How an awaited computation settles. *)
Inductive Settled (A : Type) : Type :=
  | Fulfilled (a : A)
  | Rejected.
Arguments Fulfilled {A} a.
Arguments Rejected {A}.

(** An asynchronous computation: it reads and writes the table and
    settles. *)
Definition Async (A : Type) : Type :=
  gmap string Post -> Settled A * gmap string Post.

Definition resolve {A} (a : A) : Async A := fun s => (Fulfilled a, s).

Definition throw {A} : Async A := fun s => (Rejected, s).

Definition await {A B} (m : Async A) (k : A -> Async B) : Async B :=
  fun s =>
    match m s with
    | (Fulfilled a, s') => k a s'
    | (Rejected, s') => (Rejected, s')
    end.

(** [try { m } catch (err) { h }] *)
Definition try_catch {A} (m : Async A) (h : Async A) : Async A :=
  fun s =>
    match m s with
    | (Fulfilled a, s') => (Fulfilled a, s')
    | (Rejected, s') => h s'
    end.

Notation "x <- m ;; k" := (await m (fun x => k))
  (at level 100, m at next level, right associativity).

(** ** The query options the controller builds *)

Inductive Direction : Type := ASC | DESC.

(** [db.Post], [db.User] *)
Inductive ModelRef : Type := db_Post | db_User.

Record Include : Type := {
  model : ModelRef;
  include_attributes : list string
}.

Record FindOptions : Type := {
  limit : option Z;
  attributes : option (list string);
  include : list Include;
  order : list (string * Direction);
  offset : option Z
}.

(** What the ORM generates for an inserted row: the primary key and the
    columns the caller of [create] does not supply. *)
Record Generated : Type := {
  new_id : string;
  new_feedbackScore : Z;
  new_createdAt : Z
}.

(** The attributes [createPost] hands to [create]. *)
Record CreationAttributes : Type := {
  ca_title : string;
  ca_body : string;
  ca_location : string;
  ca_capacity : Z;
  ca_UserId : string
}.

(** ** The ORM *)

(** [ORDER BY createdAt DESC]: a row stands before every row that is not
    newer. *)
Definition newest_first (a b : Instance) : Prop :=
  createdAt (dataValues b) <= createdAt (dataValues a).

Global Instance newest_first_dec a b : Decision (newest_first a b).
Proof. unfold newest_first. apply _. Defined.

Definition apply_order (o : list (string * Direction)) (l : list Instance)
  : list Instance :=
  match o with
  | ("createdAt", DESC) :: _ => merge_sort newest_first l
  | _ => l
  end.

(** [OFFSET n] and [LIMIT n] for counts that are not negative.  What a
    negative count does depends on the database (an error, or no bound);
    the properties below that rest on a count assume it is not
    negative. *)
Definition apply_offset (o : option Z) (l : list Instance) : list Instance :=
  match o with
  | Some n => drop (Z.to_nat n) l
  | None => l
  end.

Definition apply_limit (o : option Z) (l : list Instance) : list Instance :=
  match o with
  | Some n => take (Z.to_nat n) l
  | None => l
  end.

(** [ORDER BY ... LIMIT limit OFFSET offset] *)
Definition select (q : FindOptions) (l : list Instance) : list Instance :=
  apply_limit (limit q) (apply_offset (offset q) (apply_order (order q) l)).

Definition no_options : FindOptions :=
  {| limit := None; attributes := None; include := [];
     order := []; offset := None |}.

(** ** The form that creates a post

    The React component [CreatePost] keeps four pieces of state: the
    [form], the two dialog flags and the capacity error.  Every handler
    is a function from the state of the render it was created in to the
    state of the next render. *)

Module CreatePost.

(** The [form] state. *)
Record Form : Type := {
  title : string;
  body : string;
  file : string;
  tags : string;
  capacity : string;
  location : string
}.

Record State : Type := {
  form : Form;
  openPopup : bool;
  isOpen : bool;
  capacityError : string
}.

(** The state of the first render. *)
Definition initial : State :=
  {| form := {| title := ""; body := ""; file := ""; tags := "";
                capacity := ""; location := "" |};
     openPopup := false; isOpen := false; capacityError := "" |}.

Definition setForm (f : Form) (st : State) : State :=
  {| form := f; openPopup := openPopup st; isOpen := isOpen st;
     capacityError := capacityError st |}.

Definition setOpenPopup (b : bool) (st : State) : State :=
  {| form := form st; openPopup := b; isOpen := isOpen st;
     capacityError := capacityError st |}.

Definition toggleDialog (b : bool) (st : State) : State :=
  {| form := form st; openPopup := openPopup st; isOpen := b;
     capacityError := capacityError st |}.

Definition setCapacityError (e : string) (st : State) : State :=
  {| form := form st; openPopup := openPopup st; isOpen := isOpen st;
     capacityError := e |}.

(** [[0-9]] *)
Definition is_digit (c : Ascii.ascii) : bool :=
  ((48 <=? Ascii.nat_of_ascii c) && (Ascii.nat_of_ascii c <=? 57))%nat.

(** [/^[0-9]*$/.test(s)] *)
Fixpoint only_digits (s : string) : bool :=
  match s with
  | EmptyString => true
  | String c s' => is_digit c && only_digits s'
  end.

(** [handleClickOpen] *)
Definition handleClickOpen (st : State) : State := setOpenPopup true st.

(** [handleImageUpload]; [url] is what [URL.createObjectURL] gives for
    the chosen file. *)
Definition handleImageUpload (url : string) (st : State) : State :=
  let f := form st in
  setForm {| title := title f; body := body f; file := url; tags := tags f;
             capacity := capacity f; location := location f |} st.

(** [closeDialog] *)
Definition closeDialog (st : State) : State := toggleDialog false st.

(** The [onBlur] of the capacity field. *)
Definition capacityBlur (st : State) : State :=
  if negb (only_digits (capacity (form st)))
  then setCapacityError "Only numbers allowed!" st
  else setCapacityError "" st.

(** [disabled] of the Preview and the Create button. *)
Definition disabled (st : State) : bool :=
  negb (negb (String.eqb (title (form st)) "")
        && negb (String.eqb (body (form st)) "")).

(** The request of [handleSubmit]: [api_v1.post("/posts/", form)]. *)
Record Request : Type := {
  path : string;
  payload : Form
}.

Definition handleSubmit (st : State) : Request :=
  {| path := "/posts/"; payload := form st |}.

(** The alert of [handleSubmit], by whether the request succeeds. *)
Definition submitAlert (ok : bool) : string :=
  if ok then "Success!"
  else "An error occurred. Ensure all the fields are correct".

(** What the user does. *)
Inductive Event : Type :=
  | NewPostClick
  | BackClick
  | TitleChange (v : string)
  | BodyChange (v : string)
  | ThumbnailChange (url : string)
  | CapacityChange (v : string)
  | CapacityBlur
  | LocationChange (v : string)
  | TagsChange (v : string)
  | PreviewClick
  | PreviewClose.

(** The handler each event runs.  A disabled button runs none. *)
Definition handle (st : State) (e : Event) : State :=
  let f := form st in
  match e with
  | NewPostClick => toggleDialog true st
  | BackClick => closeDialog st
  | TitleChange v =>
      setForm {| title := v; body := body f; file := file f; tags := tags f;
                 capacity := capacity f; location := location f |} st
  | BodyChange v =>
      setForm {| title := title f; body := v; file := file f; tags := tags f;
                 capacity := capacity f; location := location f |} st
  | ThumbnailChange url => handleImageUpload url st
  | CapacityChange v =>
      setForm {| title := title f; body := body f; file := file f;
                 tags := tags f; capacity := v; location := location f |} st
  | CapacityBlur => capacityBlur st
  | LocationChange v =>
      setForm {| title := title f; body := body f; file := file f;
                 tags := tags f; capacity := capacity f; location := v |} st
  | TagsChange v =>
      setForm {| title := title f; body := body f; file := file f; tags := v;
                 capacity := capacity f; location := location f |} st
  | PreviewClick => if disabled st then st else handleClickOpen st
  | PreviewClose => setOpenPopup false st
  end.

(** A click on the Create button: the request sent, if any. *)
Definition createClick (st : State) : option Request :=
  if disabled st then None else Some (handleSubmit st).

(** The state after a sequence of events. *)
Definition run (st : State) (evs : list Event) : State :=
  foldl handle st evs.

Definition is_blur (e : Event) : bool :=
  match e with CapacityBlur => true | _ => false end.

Definition sets_title (e : Event) : bool :=
  match e with TitleChange v => negb (String.eqb v "") | _ => false end.

Definition sets_body (e : Event) : bool :=
  match e with BodyChange v => negb (String.eqb v "") | _ => false end.

End CreatePost.

(** ** Merging supplied fields, in the words of the specification *)

(** A string field after an update: the supplied value when one is
    supplied and it is not empty, the prior value otherwise. *)
Definition merged_string (supplied : option string) (prior now : string)
  : Prop :=
  match supplied with
  | Some v => if decide (v = "") then now = prior else now = v
  | None => now = prior
  end.

(** The capacity after an update: the supplied value when one is
    supplied and it is not zero, the prior value when none is supplied. *)
Definition merged_capacity (supplied : option Z) (prior now : Z) : Prop :=
  match supplied with
  | Some n => n <> 0 -> now = n
  | None => now = prior
  end.

(** The post after a vote. *)
Definition voted (a : Amount) (p : Post) : Post :=
  {| title := title p; body := body p; location := location p;
     capacity := capacity p;
     feedbackScore := number_add (feedbackScore p) (amount_value a);
     UserId := UserId p; createdAt := createdAt p |}.

(** The post after an update with the given optional fields. *)
Definition updated (t b l : option string) (c : option Z) (p : Post) : Post :=
  {| title := or_string t (title p); body := or_string b (body p);
     location := or_string l (location p);
     capacity := or_number c (capacity p);
     feedbackScore := feedbackScore p;
     UserId := UserId p; createdAt := createdAt p |}.

(** The row an insert stores for the attributes [createPost] passes. *)
Definition created (g : Generated) (userID t b l : string) (c : Z) : Post :=
  {| title := t; body := b; location := l; capacity := c;
     feedbackScore := new_feedbackScore g;
     UserId := userID; createdAt := new_createdAt g |}.

(** The shape of a response by its status: from 400 on it has a message
    and no result; below 400 it has no message. *)
Definition shaped {R} (r : Response R) : Prop :=
  if decide (400 <= status r)
  then exists d m, data r = Some d /\ message d = Some m /\ result d = None
  else match data r with Some d => message d = None | None => True end.

(** ** Sample data *)

Definition alices_post : Post :=
  {| title := "Board games"; body := "Bring your own";
     location := "Deerfield Hall"; capacity := 40; feedbackScore := 7;
     UserId := "alice"; createdAt := 1000 |}.

Definition one_post : gmap string Post := <["p1" := alices_post]> ∅.

Definition fresh_row : Generated :=
  {| new_id := "p2"; new_feedbackScore := 1; new_createdAt := 2000 |}.

(** A post whose score is the largest integer up to which every integer
    is a number. *)
Definition top_post : Post :=
  {| title := "Board games"; body := "Bring your own";
     location := "Deerfield Hall"; capacity := 40;
     feedbackScore := 9007199254740992;
     UserId := "alice"; createdAt := 1000 |}.

Definition top_table : gmap string Post := <["p1" := top_post]> ∅.

(** A value for the property [getComments] reads without naming it. *)
Definition sample_unnamed (_ : Instance) : option (list Instance) := None.

Section Controller.

(** What [data. as PostUser[]] reads from the instance found.  The
    source leaves the name of the property blank (the line is marked
    TODO), so what it holds is not determined by the source: it is a
    parameter, the controller is read for every value of it, and no
    property below says what [getComments] returns in [result]. *)
Variable unnamed_property : Instance -> option (list Instance).

(** The rows with a primary key: one or none. *)
Definition rows_by_pk (s : gmap string Post) (key : string) : list Instance :=
  match s !! key with
  | Some p => [ {| pk := key; dataValues := p |} ]
  | None => []
  end.

(** [Model.findByPk(key, options)]: the SELECT of the rows with that
    primary key under the options' ORDER BY, OFFSET and LIMIT, and of its
    rows the first, or [null] when it has none. *)
Definition findByPk (key : string) (q : FindOptions)
  : Async (option Instance) :=
  fun s => (Fulfilled (head (select q (rows_by_pk s key))), s).

(** [Model.findOne({ where: { id: key } })] *)
Definition findOne (key : string) : Async (option Instance) :=
  fun s =>
    (Fulfilled
       (match s !! key with
        | Some p => Some {| pk := key; dataValues := p |}
        | None => None
        end), s).

(** [instance.destroy()] *)
Definition destroy (i : Instance) : Async unit :=
  fun s => (Fulfilled tt, delete (pk i) s).

(** [instance.save()]: writes the instance's values to its row, or
    throws and writes nothing.  [ok] says which of the two the database
    does. *)
Definition save (ok : bool) (i : Instance) : Async unit :=
  fun s =>
    if ok then (Fulfilled tt, <[pk i := dataValues i]> s)
    else (Rejected, s).

(** [Model.create(attributes)]: the inserted row, or nothing when the
    insert returns no row.  [g] is what the database generates, if it
    inserts. *)
Definition create (g : option Generated) (a : CreationAttributes)
  : Async (option Instance) :=
  fun s =>
    match g with
    | Some g =>
        let p := {| title := ca_title a; body := ca_body a;
                    location := ca_location a; capacity := ca_capacity a;
                    feedbackScore := new_feedbackScore g;
                    UserId := ca_UserId a;
                    createdAt := new_createdAt g |} in
        (Fulfilled (Some {| pk := new_id g; dataValues := p |}),
         <[new_id g := p]> s)
    | None => (Fulfilled None, s)
    end.

(** ** The controller *)

(** The options of the query in [getComments]. *)
Definition getComments_options (lim off : Z) : FindOptions :=
  {| limit := Some (if MAX_RESULTS <? lim then MAX_RESULTS else lim);
     attributes := Some ["id"; "body"];
     include :=
       [ {| model := db_Post;
            include_attributes := ["id"; "title"; "body"; "createdAt"] |} ];
     order := [("createdAt", DESC)];
     offset := Some off |}.

(** [getComments(postID, limit, offset)].  [result] is the property the
    source does not name; [data.count] is [undefined], an instance of
    the model has no such column. *)
Definition getComments (postID : string) (lim off : Z)
  : Async (Response (list Instance)) :=
  data <- findByPk postID (getComments_options lim off) ;;
  match data with
  | None =>
      resolve (with_message 404 ("Post " +:+ postID +:+ " could not be found"))
  | Some d =>
      resolve {| status := 200;
                 data := Some {| result := unnamed_property d;
                                 count := None;
                                 message := None |} |}
  end.

(** [getComment(postID, userID)] *)
Definition getComment (postID userID : string) : Async (Response Instance) :=
  data <- findByPk postID
            {| limit := None; attributes := None;
               include :=
                 [ {| model := db_User;
                      include_attributes :=
                        ["firstName"; "lastName"; "userName"] |} ];
               order := []; offset := None |} ;;
  match data with
  | None =>
      resolve (with_message 404 ("Post " +:+ postID +:+ " could not be found"))
  | Some d => resolve (with_result 200 d)
  end.

(** Modelled from the spec: [getPost], which [vote] and [updatePost]
    call on [this] and the class does not define.  The spec has them
    load the post by its ID and answer 404 when it is not found; this is
    the lookup of [getComment], the method of the class that fetches one
    record by primary key. *)
Definition getPost (postID : string) : Async (Response Instance) :=
  data <- findByPk postID no_options ;;
  match data with
  | None =>
      resolve (with_message 404 ("Post " +:+ postID +:+ " could not be found"))
  | Some d => resolve (with_result 200 d)
  end.

(** [deletePost(userId, postID)] *)
Definition deletePost (userId postID : string) : Async (Response Instance) :=
  result <- findOne postID ;;
  match result with
  | None =>
      resolve
        (with_message 404 ("Post " +:+ postID +:+ " could not be deleted."))
  | Some r =>
      if negb (String.eqb (UserId (dataValues r)) userId) then
        resolve (with_message 401 "Unauthorized to delete the post.")
      else
        _ <- destroy r ;;
        resolve {| status := 204; data := None |}
  end.

(** [data.data.result!]: reading a property of [undefined] throws. *)
Definition result_of {R} (r : Response R) : Async R :=
  match data r with
  | Some d => match result d with Some x => resolve x | None => throw end
  | None => throw
  end.

(** [vote(postID, amount)].  [saved] is the outcome of the [save]. *)
Definition vote (saved : bool) (postID : string) (amount : Amount)
  : Async (Response Instance) :=
  data <- getPost postID ;;
  if negb (status data =? 200) then resolve data
  else
    try_catch
      (post <- result_of data ;;
       let v := dataValues post in
       let post :=
         {| pk := pk post;
            dataValues :=
              {| title := title v; body := body v; location := location v;
                 capacity := capacity v;
                 feedbackScore :=
                   number_add (feedbackScore v) (amount_value amount);
                 UserId := UserId v; createdAt := createdAt v |} |} in
       _ <- save saved post ;;
       resolve (with_result 204 post))
      (resolve
         (with_message 400
            ("Could not "
             +:+ (if (amount_value amount =? 1) then "upvote" else "report")
             +:+ " post: " +:+ postID))).

(** [createPost(userID, title?, body?, location?, capacity?)].
    [inserted] is what the insert generates, if it returns a row. *)
Definition createPost (inserted : option Generated) (userID : string)
    (title body location : option string) (capacity : option Z)
  : Async (Response Instance) :=
  if negb (truthy_string title) || negb (truthy_string body)
     || negb (truthy_string location) || negb (is_defined capacity)
  then resolve (with_message 400 "Missing fields.")
  else
    post <- create inserted
              {| ca_title := default "" title;
                 ca_body := default "" body;
                 ca_location := default "" location;
                 ca_capacity := default 0 capacity;
                 ca_UserId := userID |} ;;
    match post with
    | None => resolve (with_message 500 "Could not create the new post")
    | Some post => resolve (with_result 200 post)
    end.

(** [(await this.getPost(postID)).data.result] *)
Definition data_result {R} (r : Response R) : Async (option R) :=
  match data r with
  | Some d => resolve (result d)
  | None => throw
  end.

(** [updatePost(currentUserId, postID, title?, body?, location?,
    capacity?)].  [saved] is the outcome of the [save]. *)
Definition updatePost (saved : bool) (currentUserId postID : string)
    (title' body' location' : option string) (capacity' : option Z)
  : Async (Response Instance) :=
  r <- getPost postID ;;
  post <- data_result r ;;
  match post with
  | Some post =>
      if String.eqb (UserId (dataValues post)) currentUserId then
        try_catch
          (let v := dataValues post in
           let post :=
             {| pk := pk post;
                dataValues :=
                  {| title := or_string title' (title v);
                     body := or_string body' (body v);
                     location := or_string location' (location v);
                     capacity := or_number capacity' (capacity v);
                     feedbackScore := feedbackScore v;
                     UserId := UserId v; createdAt := createdAt v |} |} in
           _ <- save saved post ;;
           resolve (with_result 200 post))
          (resolve (with_message 500 "Could not update the post."))
      else resolve (with_message 401 "Not authorized to edit this post.")
  | None => resolve (with_message 404 "Could not find post.")
  end.

(** ** Lookups *)

Lemma apply_order_nil o : apply_order o [] = [].
Proof. unfold apply_order. repeat case_match; reflexivity. Qed.

Lemma select_nil (q : FindOptions) : select q [] = [].
Proof.
  unfold select, apply_limit, apply_offset. rewrite apply_order_nil.
  destruct (offset q), (limit q); by rewrite ?drop_nil, ?take_nil.
Qed.

Lemma findByPk_missing (s : gmap string Post) k q :
  s !! k = None -> findByPk k q s = (Fulfilled None, s).
Proof.
  intros H. unfold findByPk, rows_by_pk. by rewrite H, select_nil.
Qed.

Lemma findOne_found (s : gmap string Post) k p :
  s !! k = Some p ->
  findOne k s = (Fulfilled (Some {| pk := k; dataValues := p |}), s).
Proof. intros H. unfold findOne. by rewrite H. Qed.

Lemma findOne_missing (s : gmap string Post) k :
  s !! k = None -> findOne k s = (Fulfilled None, s).
Proof. intros H. unfold findOne. by rewrite H. Qed.

Lemma getPost_found (s : gmap string Post) k p :
  s !! k = Some p ->
  getPost k s = (Fulfilled (with_result 200 {| pk := k; dataValues := p |}), s).
Proof. intros H. unfold getPost, await, findByPk, rows_by_pk. by rewrite H. Qed.

Lemma getPost_missing (s : gmap string Post) k :
  s !! k = None ->
  getPost k s
  = (Fulfilled (with_message 404 ("Post " +:+ k +:+ " could not be found")), s).
Proof. intros H. unfold getPost, await, findByPk, rows_by_pk. by rewrite H. Qed.

Lemma eqb_differs (a b : string) : a <> b -> String.eqb a b = false.
Proof. intros H. by apply String.eqb_neq. Qed.

(** ** deletePost *)

(** C1: when the stored owner of a post is [a] and [deletePost] is
    called with a different user [b], the response is 401 and the table
    is the one before the call: the row is neither destroyed nor
    changed. *)
Theorem deletePost_other_user_401 (s : gmap string Post) (a b postID : string)
    (p : Post) :
  s !! postID = Some p -> UserId p = a -> a <> b ->
  exists r s',
    deletePost b postID s = (Fulfilled r, s') /\
    status r = 401 /\
    s' = s /\ s' !! postID = Some p.
Proof.
  intros Hp Ha Hab.
  exists (with_message 401 "Unauthorized to delete the post."), s.
  split; [|done].
  unfold deletePost, await. rewrite (findOne_found _ _ _ Hp). simpl.
  rewrite Ha, (eqb_differs _ _ Hab). reflexivity.
Qed.

(** ** Posts that do not exist *)

(** C8: for a post ID the table does not hold, [getComment],
    [getComments] and [deletePost] each answer 404 with a message and
    with no [result], and leave the table as it is. *)
Theorem missing_post_404 (s : gmap string Post) (postID userID : string)
    (lim off : Z) :
  s !! postID = None ->
  (exists r, getComment postID userID s = (Fulfilled r, s) /\
     status r = 404 /\
     exists d m, data r = Some d /\ message d = Some m /\ result d = None) /\
  (exists r, getComments postID lim off s = (Fulfilled r, s) /\
     status r = 404 /\
     exists d m, data r = Some d /\ message d = Some m /\ result d = None) /\
  (exists r, deletePost userID postID s = (Fulfilled r, s) /\
     status r = 404 /\
     exists d m, data r = Some d /\ message d = Some m /\ result d = None).
Proof.
  intros H. repeat split.
  - eexists. unfold getComment, await, findByPk, rows_by_pk. rewrite H.
    split; [reflexivity|]. split; [reflexivity|]. by eexists _, _.
  - eexists. unfold getComments, await. rewrite (findByPk_missing _ _ _ H).
    split; [reflexivity|]. split; [reflexivity|]. by eexists _, _.
  - eexists. unfold deletePost, await. rewrite (findOne_missing _ _ H).
    split; [reflexivity|]. split; [reflexivity|]. by eexists _, _.
Qed.

(** ** updatePost *)

Lemma updatePost_not_owner (s : gmap string Post) saved cur k t b l c p :
  s !! k = Some p -> UserId p <> cur ->
  updatePost saved cur k t b l c s
  = (Fulfilled (with_message 401 "Not authorized to edit this post."), s).
Proof.
  intros Hp Hne. unfold updatePost, await. rewrite (getPost_found _ _ _ Hp).
  simpl. by rewrite (eqb_differs _ _ Hne).
Qed.

(** C10: when the stored owner of an existing post differs from
    [currentUserId], [updatePost] answers 401 and the table is the one
    before the call, whichever optional fields are supplied and whatever
    a save would have done. *)
Theorem updatePost_other_user_401 (s : gmap string Post) (saved : bool)
    (currentUserId postID : string) (p : Post)
    (title' body' location' : option string) (capacity' : option Z) :
  s !! postID = Some p -> UserId p <> currentUserId ->
  exists r s',
    updatePost saved currentUserId postID title' body' location' capacity' s
    = (Fulfilled r, s') /\
    status r = 401 /\
    s' = s /\ s' !! postID = Some p.
Proof.
  intros Hp Hne. eexists _, _.
  split; [exact (updatePost_not_owner _ _ _ _ _ _ _ _ _ Hp Hne)|]. done.
Qed.

(** ** vote *)

Lemma to_number_exact (z : Z) : Z.abs z <= MAX_EXACT -> to_number z = z.
Proof.
  intros H. unfold to_number.
  destruct (Z.leb_spec (Z.abs z) MAX_EXACT); [reflexivity|lia].
Qed.

Lemma number_add_exact (x y : Z) :
  Z.abs (x + y) <= MAX_EXACT -> number_add x y = x + y.
Proof. apply to_number_exact. Qed.

Lemma number_add_amount (x : Z) (a : Amount) :
  - MAX_EXACT < x < MAX_EXACT ->
  number_add x (amount_value a) = x + amount_value a.
Proof.
  intros H. apply number_add_exact.
  unfold MAX_EXACT in *. destruct a; simpl; lia.
Qed.

Lemma voted_back (p : Post) :
  - MAX_EXACT < feedbackScore p < MAX_EXACT ->
  voted Minus1 (voted Plus1 p) = p.
Proof.
  intros H. destruct p as [t b l c f u cr]. unfold voted.
  cbn [title body location capacity feedbackScore UserId createdAt] in *.
  f_equal. rewrite (number_add_amount f Plus1 H).
  rewrite number_add_exact; unfold MAX_EXACT in *; simpl; lia.
Qed.

Lemma vote_saved (s : gmap string Post) k a p :
  s !! k = Some p ->
  vote true k a s
  = (Fulfilled (with_result 204 {| pk := k; dataValues := voted a p |}),
     <[k := voted a p]> s).
Proof.
  intros H. unfold vote, await. rewrite (getPost_found _ _ _ H). reflexivity.
Qed.

Lemma vote_not_saved (s : gmap string Post) k a p :
  s !! k = Some p ->
  exists r, vote false k a s = (Fulfilled r, s) /\ status r = 400.
Proof.
  intros H. unfold vote, await. rewrite (getPost_found _ _ _ H).
  eexists. split; reflexivity.
Qed.

Lemma vote_missing (s : gmap string Post) saved k a :
  s !! k = None ->
  exists r, vote saved k a s = (Fulfilled r, s) /\ status r = 404.
Proof.
  intros H. unfold vote, await. rewrite (getPost_missing _ _ H).
  eexists. split; reflexivity.
Qed.

(** C4, as the code has it: [feedbackScore] is a number, and up to
    2^53 in absolute value it holds every integer.  For a post whose
    score lies strictly between -2^53 and 2^53, a vote whose save
    succeeds answers 204 and changes the stored score by exactly the
    amount; so voting 1 and then -1 on such a post, both saves
    succeeding, gives back the score, and indeed the table, from before
    the two votes. *)
Theorem vote_up_then_down (s : gmap string Post) (postID : string) (p : Post) :
  s !! postID = Some p ->
  - MAX_EXACT < feedbackScore p < MAX_EXACT ->
  (forall a, exists r s',
      vote true postID a s = (Fulfilled r, s') /\ status r = 204 /\
      feedbackScore <$> s' !! postID
      = Some (feedbackScore p + amount_value a)) /\
  exists r1 s1 r2 s2,
    vote true postID Plus1 s = (Fulfilled r1, s1) /\ status r1 = 204 /\
    vote true postID Minus1 s1 = (Fulfilled r2, s2) /\ status r2 = 204 /\
    feedbackScore <$> s2 !! postID = Some (feedbackScore p) /\
    s2 = s.
Proof.
  intros H Hsafe. split.
  - intros a. eexists _, _. split; [apply (vote_saved _ _ a _ H)|].
    split; [reflexivity|]. rewrite lookup_insert_eq. simpl.
    by rewrite (number_add_amount _ a Hsafe).
  - eexists _, _, _, _.
    split; [apply (vote_saved _ _ Plus1 _ H)|]. split; [reflexivity|].
    split; [apply vote_saved, lookup_insert_eq|]. split; [reflexivity|].
    rewrite (voted_back _ Hsafe), insert_insert_eq, (insert_id _ _ _ H).
    by rewrite H.
Qed.

(** ** updatePost, continued *)

Lemma or_string_merged x d : merged_string x d (or_string x d).
Proof.
  destruct x as [v|]; simpl; [|done].
  case_decide as Hv.
  - subst v. reflexivity.
  - by rewrite (eqb_differs _ _ Hv).
Qed.

Lemma or_number_merged x d : merged_capacity x d (or_number x d).
Proof.
  destruct x as [n|]; simpl; [|done].
  intros Hn. by destruct (Z.eqb_spec n 0).
Qed.

Lemma updated_nothing (p : Post) : updated None None None None p = p.
Proof. by destruct p. Qed.

Lemma updatePost_saved (s : gmap string Post) cur k t b l c p :
  s !! k = Some p -> UserId p = cur ->
  updatePost true cur k t b l c s
  = (Fulfilled
       (with_result 200 {| pk := k; dataValues := updated t b l c p |}),
     <[k := updated t b l c p]> s).
Proof.
  intros H <-. unfold updatePost, await. rewrite (getPost_found _ _ _ H).
  simpl. rewrite String.eqb_refl. reflexivity.
Qed.

Lemma updatePost_not_saved (s : gmap string Post) cur k t b l c p :
  s !! k = Some p -> UserId p = cur ->
  updatePost false cur k t b l c s
  = (Fulfilled (with_message 500 "Could not update the post."), s).
Proof.
  intros H <-. unfold updatePost, await. rewrite (getPost_found _ _ _ H).
  simpl. rewrite String.eqb_refl. reflexivity.
Qed.

Lemma updatePost_missing (s : gmap string Post) saved cur k t b l c :
  s !! k = None ->
  updatePost saved cur k t b l c s
  = (Fulfilled (with_message 404 "Could not find post."), s).
Proof.
  intros H. unfold updatePost, await. by rewrite (getPost_missing _ _ H).
Qed.

(** C3, as the code has it: for a post owned by the caller, an
    [updatePost] whose save succeeds answers 200 with the record it
    stored, in which a string field supplied and not empty has the
    supplied value, a string field not supplied or supplied empty has its
    prior value, the capacity has the supplied value when that is not
    zero and its prior value when none is supplied, and the other columns
    are as before; when the save throws the answer is 500 and the table
    is unchanged; a post of another user gives 401 and a post that is not
    found 404. *)
Theorem updatePost_merges_supplied_fields (s : gmap string Post)
    (currentUserId postID : string)
    (title' body' location' : option string) (capacity' : option Z) :
  (forall p, s !! postID = Some p -> UserId p = currentUserId ->
     (exists q,
        updatePost true currentUserId postID title' body' location' capacity' s
        = (Fulfilled (with_result 200 {| pk := postID; dataValues := q |}),
           <[postID := q]> s) /\
        merged_string title' (title p) (title q) /\
        merged_string body' (body p) (body q) /\
        merged_string location' (location p) (location q) /\
        merged_capacity capacity' (capacity p) (capacity q) /\
        feedbackScore q = feedbackScore p /\
        UserId q = UserId p /\ createdAt q = createdAt p) /\
     (exists r,
        updatePost false currentUserId postID title' body' location' capacity' s
        = (Fulfilled r, s) /\ status r = 500)) /\
  (forall saved p, s !! postID = Some p -> UserId p <> currentUserId ->
     exists r,
       updatePost saved currentUserId postID title' body' location' capacity' s
       = (Fulfilled r, s) /\ status r = 401) /\
  (forall saved, s !! postID = None ->
     exists r,
       updatePost saved currentUserId postID title' body' location' capacity' s
       = (Fulfilled r, s) /\ status r = 404).
Proof.
  split; [|split].
  - intros p Hp Hu. split.
    + exists (updated title' body' location' capacity' p).
      split; [exact (updatePost_saved _ _ _ _ _ _ _ _ Hp Hu)|].
      simpl. repeat split; auto using or_string_merged, or_number_merged.
    + eexists. split; [exact (updatePost_not_saved _ _ _ _ _ _ _ _ Hp Hu)|reflexivity].
  - intros saved p Hp Hne. eexists.
    split; [exact (updatePost_not_owner _ _ _ _ _ _ _ _ _ Hp Hne)|reflexivity].
  - intros saved H. eexists.
    split; [by apply updatePost_missing|reflexivity].
Qed.

(** C6, as the code has it: for an existing post owned by the caller,
    [updatePost] with no optional field supplied leaves the table, and so
    every field of the post, as it was; it answers 200 with the post
    when the save succeeds and 500 when the save throws. *)
Theorem updatePost_nothing_supplied (s : gmap string Post) (saved : bool)
    (currentUserId postID : string) (p : Post) :
  s !! postID = Some p -> UserId p = currentUserId ->
  exists r s',
    updatePost saved currentUserId postID None None None None s
    = (Fulfilled r, s') /\
    s' = s /\ s' !! postID = Some p /\
    (if saved
     then r = with_result 200 {| pk := postID; dataValues := p |}
     else status r = 500).
Proof.
  intros Hp Hu. destruct saved.
  - eexists _, _. split; [exact (updatePost_saved _ _ _ _ _ _ _ _ Hp Hu)|].
    rewrite updated_nothing, (insert_id _ _ _ Hp). done.
  - eexists _, _. split; [exact (updatePost_not_saved _ _ _ _ _ _ _ _ Hp Hu)|]. done.
Qed.

(** ** createPost *)

Lemma truthy_nonempty (v : string) : v <> "" -> truthy_string (Some v) = true.
Proof. intros H. simpl. by rewrite (eqb_differs _ _ H). Qed.

Lemma createPost_missing_field (s : gmap string Post) inserted userID t b l c :
  truthy_string t && truthy_string b && truthy_string l && is_defined c
  = false ->
  createPost inserted userID t b l c s
  = (Fulfilled (with_message 400 "Missing fields."), s).
Proof.
  intros H. unfold createPost.
  destruct (truthy_string t), (truthy_string b), (truthy_string l),
    (is_defined c); done.
Qed.

Lemma createPost_inserted (s : gmap string Post) g userID t b l c :
  t <> "" -> b <> "" -> l <> "" ->
  createPost (Some g) userID (Some t) (Some b) (Some l) (Some c) s
  = (Fulfilled
       (with_result 200
          {| pk := new_id g; dataValues := created g userID t b l c |}),
     <[new_id g := created g userID t b l c]> s).
Proof.
  intros Ht Hb Hl. unfold createPost.
  rewrite !truthy_nonempty by done. reflexivity.
Qed.

Lemma createPost_no_row (s : gmap string Post) userID t b l c :
  t <> "" -> b <> "" -> l <> "" ->
  createPost None userID (Some t) (Some b) (Some l) (Some c) s
  = (Fulfilled (with_message 500 "Could not create the new post"), s).
Proof.
  intros Ht Hb Hl. unfold createPost.
  rewrite !truthy_nonempty by done. reflexivity.
Qed.

(** C2, as the code has it: a [createPost] in which [title], [body],
    [location] or [capacity] is absent answers 400 with a message and
    without a result, and inserts nothing; when all four are supplied
    and the three strings are not empty, it answers 500 if the insert
    returns no row and otherwise 200 with the inserted record in
    [data.result]. *)
Theorem createPost_outcomes (s : gmap string Post)
    (inserted : option Generated) (userID : string)
    (title' body' location' : option string) (capacity' : option Z) :
  (title' = None \/ body' = None \/ location' = None \/ capacity' = None ->
   exists r,
     createPost inserted userID title' body' location' capacity' s
     = (Fulfilled r, s) /\
     status r = 400 /\
     exists d m, data r = Some d /\ message d = Some m /\ result d = None) /\
  (forall t b l c,
     title' = Some t -> body' = Some b -> location' = Some l ->
     capacity' = Some c -> t <> "" -> b <> "" -> l <> "" ->
     match inserted with
     | None =>
         exists r,
           createPost inserted userID title' body' location' capacity' s
           = (Fulfilled r, s) /\ status r = 500
     | Some g =>
         exists r i,
           createPost inserted userID title' body' location' capacity' s
           = (Fulfilled r, <[pk i := dataValues i]> s) /\
           status r = 200 /\
           data r
           = Some {| result := Some i; count := None; message := None |} /\
           i = {| pk := new_id g; dataValues := created g userID t b l c |}
     end).
Proof.
  split.
  - intros H. eexists. split.
    + apply createPost_missing_field.
      destruct H as [-> | [-> | [-> | ->]]]; simpl;
        rewrite ?andb_false_r; reflexivity.
    + split; [reflexivity|]. by eexists _, _.
  - intros t b l c -> -> -> -> Ht Hb Hl. destruct inserted as [g|].
    + exists (with_result 200
                {| pk := new_id g; dataValues := created g userID t b l c |}).
      exists {| pk := new_id g; dataValues := created g userID t b l c |}.
      split; [by apply createPost_inserted|]. done.
    + eexists. split; [by apply createPost_no_row|]. done.
Qed.

(** C9: [createPost] with the empty string for [title], [body] or
    [location] answers 400 and inserts nothing, whatever the other
    arguments; with capacity 0 and the three strings not empty it does
    not answer 400 but goes on to the insert, and when that returns a row
    the answer is 200 with the stored record, whose capacity is 0. *)
Theorem createPost_empty_string_vs_zero (s : gmap string Post)
    (inserted : option Generated) (userID : string) :
  (forall title' body' location' capacity',
     title' = Some "" \/ body' = Some "" \/ location' = Some "" ->
     createPost inserted userID title' body' location' capacity' s
     = (Fulfilled (with_message 400 "Missing fields."), s)) /\
  (forall t b l, t <> "" -> b <> "" -> l <> "" ->
     exists r s',
       createPost inserted userID (Some t) (Some b) (Some l) (Some 0) s
       = (Fulfilled r, s') /\
       status r <> 400 /\
       (inserted = None -> status r = 500 /\ s' = s) /\
       (forall g, inserted = Some g ->
          status r = 200 /\
          exists q,
            data r
            = Some {| result := Some {| pk := new_id g; dataValues := q |};
                      count := None; message := None |} /\
            s' !! new_id g = Some q /\ capacity q = 0)).
Proof.
  split.
  - intros t b l c H. apply createPost_missing_field.
    destruct H as [-> | [-> | ->]]; simpl; rewrite ?andb_false_r; reflexivity.
  - intros t b l Ht Hb Hl. destruct inserted as [g|].
    + eexists _, _. split; [by apply createPost_inserted|].
      split; [done|]. split; [done|]. intros g' [= <-]. split; [done|].
      eexists. split; [reflexivity|]. by rewrite lookup_insert_eq.
    + eexists _, _. split; [by apply createPost_no_row|]. done.
Qed.

(** ** getComments *)





(** ** Responses with status 204 *)

(** C7, as the code has it: a 204 of [deletePost] has no [data] at all;
    a 204 of [vote] has no message, but its [data.result] is the record
    the vote saved; and no other method answers 204. *)
Theorem status_204_responses (s : gmap string Post) :
  (forall userId postID r s',
     deletePost userId postID s = (Fulfilled r, s') ->
     status r = 204 -> data r = None) /\
  (forall saved postID amount r s',
     vote saved postID amount s = (Fulfilled r, s') ->
     status r = 204 ->
     exists i,
       data r = Some {| result := Some i; count := None; message := None |} /\
       pk i = postID /\ s' !! postID = Some (dataValues i)) /\
  (forall postID lim off r s',
     getComments postID lim off s = (Fulfilled r, s') -> status r <> 204) /\
  (forall postID userID r s',
     getComment postID userID s = (Fulfilled r, s') -> status r <> 204) /\
  (forall inserted userID t b l c r s',
     createPost inserted userID t b l c s = (Fulfilled r, s') ->
     status r <> 204) /\
  (forall saved currentUserId postID t b l c r s',
     updatePost saved currentUserId postID t b l c s = (Fulfilled r, s') ->
     status r <> 204).
Proof.
  repeat split.
  - intros userId postID r s'. unfold deletePost, await, findOne.
    destruct (s !! postID) as [p|]; simpl.
    + destruct (String.eqb (UserId p) userId); simpl;
        intros [= <- <-]; done.
    + intros [= <- <-]; done.
  - intros saved postID amount r s' H Hst.
    destruct (s !! postID) as [p|] eqn:Hp.
    + destruct saved.
      * rewrite (vote_saved _ _ amount _ Hp) in H.
        injection H as <- <-. eexists. split; [reflexivity|].
        split; [reflexivity|]. by rewrite lookup_insert_eq.
      * destruct (vote_not_saved _ _ amount _ Hp) as (r' & Hr' & Hst').
        rewrite Hr' in H. injection H as <- <-. lia.
    + destruct (vote_missing _ saved _ amount Hp) as (r' & Hr' & Hst').
      rewrite Hr' in H. injection H as <- <-. lia.
  - intros postID lim off r s'. unfold getComments, await, findByPk.
    destruct (head (select _ _)); intros [= <- <-]; done.
  - intros postID userID r s'. unfold getComment, await, findByPk.
    destruct (head (select _ _)); intros [= <- <-]; done.
  - intros inserted userID t b l c r s'. unfold createPost, await, create.
    destruct (_ || _); [intros [= <- <-]; done|].
    destruct inserted; intros [= <- <-]; done.
  - intros saved cur postID t b l c r s'.
    unfold updatePost, await, try_catch, save, getPost, await, findByPk,
      rows_by_pk.
    destruct (s !! postID) as [p|]; simpl; [|intros [= <- <-]; done].
    destruct (String.eqb (UserId p) cur); [|intros [= <- <-]; done].
    destruct saved; simpl; intros [= <- <-]; done.
Qed.

(** ** Outcomes of the methods, branch by branch *)

Lemma deletePost_owner (s : gmap string Post) u k p :
  s !! k = Some p -> UserId p = u ->
  deletePost u k s = (Fulfilled {| status := 204; data := None |}, delete k s).
Proof.
  intros H <-. unfold deletePost, await. rewrite (findOne_found _ _ _ H).
  simpl. by rewrite String.eqb_refl.
Qed.

Lemma deletePost_not_owner (s : gmap string Post) u k p :
  s !! k = Some p -> UserId p <> u ->
  deletePost u k s
  = (Fulfilled (with_message 401 "Unauthorized to delete the post."), s).
Proof.
  intros H Hne. unfold deletePost, await. rewrite (findOne_found _ _ _ H).
  simpl. by rewrite (eqb_differs _ _ Hne).
Qed.

Lemma deletePost_missing (s : gmap string Post) u k :
  s !! k = None ->
  deletePost u k s
  = (Fulfilled
       (with_message 404 ("Post " +:+ k +:+ " could not be deleted.")), s).
Proof.
  intros H. unfold deletePost, await. by rewrite (findOne_missing _ _ H).
Qed.

Lemma getComment_found (s : gmap string Post) k u p :
  s !! k = Some p ->
  getComment k u s
  = (Fulfilled (with_result 200 {| pk := k; dataValues := p |}), s).
Proof. intros H. unfold getComment, await, findByPk, rows_by_pk. by rewrite H. Qed.

Lemma getComment_missing (s : gmap string Post) k u :
  s !! k = None ->
  getComment k u s
  = (Fulfilled (with_message 404 ("Post " +:+ k +:+ " could not be found")), s).
Proof. intros H. unfold getComment, await, findByPk, rows_by_pk. by rewrite H. Qed.

Lemma getComments_answers (s : gmap string Post) k lim off r s' :
  getComments k lim off s = (Fulfilled r, s') ->
  s' = s /\
  (r = with_message 404 ("Post " +:+ k +:+ " could not be found") \/
   exists i,
     r = {| status := 200;
            data := Some {| result := unnamed_property i; count := None;
                            message := None |} |}).
Proof.
  unfold getComments, await, findByPk.
  destruct (head (select _ _)) as [i|]; intros [= <- <-].
  - split; [done|]. right. by exists i.
  - split; [done|]. by left.
Qed.

Lemma vote_throws (s : gmap string Post) k a p :
  s !! k = Some p ->
  vote false k a s
  = (Fulfilled
       (with_message 400
          ("Could not "
           +:+ match a with Plus1 => "upvote" | Minus1 => "report" end
           +:+ " post: " +:+ k)), s).
Proof.
  intros H. unfold vote, await. rewrite (getPost_found _ _ _ H).
  by destruct a.
Qed.

Lemma vote_absent (s : gmap string Post) saved k a :
  s !! k = None ->
  vote saved k a s
  = (Fulfilled (with_message 404 ("Post " +:+ k +:+ " could not be found")), s).
Proof.
  intros H. unfold vote, await. by rewrite (getPost_missing _ _ H).
Qed.

Lemma voted_twice (a b : Amount) (p : Post) :
  Z.abs (feedbackScore p) + 2 <= MAX_EXACT ->
  voted b (voted a p) = voted a (voted b p) /\
  feedbackScore (voted b (voted a p))
  = feedbackScore p + amount_value a + amount_value b.
Proof.
  intros H. unfold voted.
  cbn [title body location capacity feedbackScore UserId createdAt].
  assert (forall x y : Amount,
            number_add (number_add (feedbackScore p) (amount_value x))
              (amount_value y)
            = feedbackScore p + amount_value x + amount_value y) as Hsum.
  { intros x y. rewrite (number_add_exact (feedbackScore p)).
    - apply number_add_exact.
      unfold MAX_EXACT in *. destruct x, y; simpl; lia.
    - unfold MAX_EXACT in *. destruct x; simpl; lia. }
  split; [|apply Hsum]. f_equal. rewrite !Hsum. lia.
Qed.

Lemma or_string_twice x d : or_string x (or_string x d) = or_string x d.
Proof. destruct x as [v|]; simpl; [|done]. by destruct (String.eqb v ""). Qed.

Lemma or_number_twice x d : or_number x (or_number x d) = or_number x d.
Proof. destruct x as [n|]; simpl; [|done]. by destruct (n =? 0). Qed.

Lemma updated_twice t b l c (p : Post) :
  updated t b l c (updated t b l c p) = updated t b l c p.
Proof.
  unfold updated. simpl.
  by rewrite !or_string_twice, or_number_twice.
Qed.

(** ** deletePost, continued *)

(** X1: [deletePost] by the owner answers 204 and removes the row and no
    other; after it the same call answers 404 and [getComment] answers
    404 for every user. *)
Theorem deletePost_by_owner_removes_row (s : gmap string Post)
    (userId postID : string) (p : Post) :
  s !! postID = Some p -> UserId p = userId ->
  exists r s',
    deletePost userId postID s = (Fulfilled r, s') /\
    status r = 204 /\ data r = None /\
    s' !! postID = None /\
    (forall j, j <> postID -> s' !! j = s !! j) /\
    (exists r2, deletePost userId postID s' = (Fulfilled r2, s') /\
                status r2 = 404) /\
    (forall reader, exists r3,
        getComment postID reader s' = (Fulfilled r3, s') /\ status r3 = 404).
Proof.
  intros Hp Hu. eexists _, _.
  split; [exact (deletePost_owner _ _ _ _ Hp Hu)|].
  assert (delete postID s !! postID = None) as Hgone
    by apply lookup_delete_eq.
  split; [done|]. split; [done|]. split; [done|]. split.
  - intros j Hj. by apply lookup_delete_ne.
  - split.
    + eexists. split; [exact (deletePost_missing _ _ _ Hgone)|done].
    + intros reader. eexists.
      split; [exact (getComment_missing _ _ _ Hgone)|done].
Qed.

(** ** getComment *)

(** X2: [getComment] does not look at its [userID]: two callers get
    the same answer, and for a post the table holds every caller, owner
    or not, gets 200 with the stored record while the table stays as it
    is. *)
Theorem getComment_serves_any_user (s : gmap string Post)
    (postID user1 user2 : string) :
  getComment postID user1 s = getComment postID user2 s /\
  forall p, s !! postID = Some p ->
    getComment postID user1 s
    = (Fulfilled (with_result 200 {| pk := postID; dataValues := p |}), s).
Proof.
  split; [reflexivity|]. intros p Hp. by apply getComment_found.
Qed.

(** ** Shapes of responses *)

Lemma shaped_with_message {R} (st : Z) (msg : string) :
  400 <= st -> shaped (with_message (R := R) st msg).
Proof.
  intros H. unfold shaped, with_message. cbn [status data].
  destruct (decide (400 <= st)); [by eexists _, _|done].
Qed.

Lemma shaped_with_result {R} (st : Z) (x : R) :
  st < 400 -> shaped (with_result st x).
Proof.
  intros H. unfold shaped, with_result. cbn [status data].
  destruct (decide (400 <= st)); [lia|done].
Qed.

Lemma shaped_without_data {R} (st : Z) :
  st < 400 -> shaped {| status := st; data := @None (Data R) |}.
Proof.
  intros H. unfold shaped. cbn [status data].
  destruct (decide (400 <= st)); [lia|done].
Qed.

(** ** vote, continued *)

(** X5: a vote that fails changes nothing: on a post the table does not
    hold it answers 404 whatever the save would do, and when the save
    throws it answers 400 with a message that says [upvote] for 1 and
    [report] for -1; in both cases the table is the one before the
    call, so the score raised in memory is not kept. *)
Theorem vote_failures_change_nothing (s : gmap string Post) (postID : string)
    (amount : Amount) :
  (s !! postID = None ->
   forall saved, exists r,
     vote saved postID amount s = (Fulfilled r, s) /\
     status r = 404 /\ shaped r) /\
  (forall p, s !! postID = Some p ->
     vote false postID amount s
     = (Fulfilled
          (with_message 400
             ("Could not "
              +:+ match amount with Plus1 => "upvote" | Minus1 => "report" end
              +:+ " post: " +:+ postID)), s)).
Proof.
  split.
  - intros H saved. eexists. split; [exact (vote_absent _ _ _ _ H)|].
    split; [reflexivity|]. by apply shaped_with_message.
  - intros p Hp. exact (vote_throws _ _ _ _ Hp).
Qed.

(** X6: a vote whose save succeeds changes the score of that post and
    nothing else, whoever owns the post: the new score is the number
    nearest to the old score plus the amount, which is the old score
    plus the amount when the old score lies strictly between -2^53 and
    2^53; the other columns of the row are the same, the other rows are
    the same, and no row is added or removed. *)
Theorem vote_changes_score_only (s : gmap string Post) (postID : string)
    (amount : Amount) (p : Post) :
  s !! postID = Some p ->
  exists r s' q,
    vote true postID amount s = (Fulfilled r, s') /\
    status r = 204 /\
    s' !! postID = Some q /\
    feedbackScore q = to_number (feedbackScore p + amount_value amount) /\
    (- MAX_EXACT < feedbackScore p < MAX_EXACT ->
     feedbackScore q = feedbackScore p + amount_value amount) /\
    title q = title p /\ body q = body p /\ location q = location p /\
    capacity q = capacity p /\ UserId q = UserId p /\
    createdAt q = createdAt p /\
    (forall j, j <> postID -> s' !! j = s !! j) /\
    dom s' = dom s.
Proof.
  intros Hp. eexists _, _, (voted amount p).
  split; [exact (vote_saved _ _ amount _ Hp)|]. split; [reflexivity|].
  split; [apply lookup_insert_eq|]. split; [reflexivity|].
  split; [intros Hsafe; by apply number_add_amount|].
  repeat (split; [reflexivity|]).
  split.
  - intros j Hj. by apply lookup_insert_ne.
  - apply dom_insert_lookup_L. by rewrite Hp.
Qed.

(** X7: votes add up and commute while the score stays among the
    integers a number holds exactly: for a post whose score is at most
    2^53 - 2 in absolute value, two votes, both saved, change the score
    by the sum of the two amounts, and in the other order they lead to
    the same table. *)
Theorem votes_commute (s : gmap string Post) (postID : string)
    (a b : Amount) (p : Post) :
  s !! postID = Some p ->
  Z.abs (feedbackScore p) + 2 <= MAX_EXACT ->
  exists r1 s1 r2 s2 r1' s1' r2' s2',
    vote true postID a s = (Fulfilled r1, s1) /\
    vote true postID b s1 = (Fulfilled r2, s2) /\
    vote true postID b s = (Fulfilled r1', s1') /\
    vote true postID a s1' = (Fulfilled r2', s2') /\
    s2 = s2' /\
    feedbackScore <$> s2 !! postID
    = Some (feedbackScore p + amount_value a + amount_value b).
Proof.
  intros Hp Hsafe. eexists _, _, _, _, _, _, _, _.
  split; [exact (vote_saved _ _ a _ Hp)|].
  split; [apply vote_saved, lookup_insert_eq|].
  split; [exact (vote_saved _ _ b _ Hp)|].
  split; [apply vote_saved, lookup_insert_eq|].
  rewrite !insert_insert_eq.
  destruct (voted_twice a b p Hsafe) as [Hcomm Hsum]. split.
  - by rewrite Hcomm.
  - rewrite lookup_insert_eq. simpl. by rewrite <- Hsum.
Qed.

(** ** updatePost, once more *)

(** X8: [updatePost] is idempotent: after an update by the owner whose
    save succeeds, the same update again gives the same answer and
    leaves the table as the first update left it. *)
Theorem updatePost_twice (s : gmap string Post)
    (currentUserId postID : string)
    (title' body' location' : option string) (capacity' : option Z)
    (p : Post) :
  s !! postID = Some p -> UserId p = currentUserId ->
  exists r s1,
    updatePost true currentUserId postID title' body' location' capacity' s
    = (Fulfilled r, s1) /\
    status r = 200 /\
    updatePost true currentUserId postID title' body' location' capacity' s1
    = (Fulfilled r, s1).
Proof.
  intros Hp Hu. eexists _, _.
  split; [exact (updatePost_saved _ _ _ _ _ _ _ _ Hp Hu)|].
  split; [reflexivity|].
  rewrite (updatePost_saved _ currentUserId postID title' body' location'
             capacity' (updated title' body' location' capacity' p)).
  - by rewrite updated_twice, insert_insert_eq.
  - apply lookup_insert_eq.
  - exact Hu.
Qed.

(** X9: whatever its arguments and whatever the save does,
    [updatePost] is fulfilled, leaves every other row as it is, adds and
    removes no row, and leaves the owner, the score and the creation
    time of the row itself as they are. *)
Theorem updatePost_keeps_owner_and_rows (s : gmap string Post) (saved : bool)
    (currentUserId postID : string)
    (title' body' location' : option string) (capacity' : option Z) :
  exists r s',
    updatePost saved currentUserId postID title' body' location' capacity' s
    = (Fulfilled r, s') /\
    (forall j, j <> postID -> s' !! j = s !! j) /\
    dom s' = dom s /\
    UserId <$> s' !! postID = UserId <$> s !! postID /\
    feedbackScore <$> s' !! postID = feedbackScore <$> s !! postID /\
    createdAt <$> s' !! postID = createdAt <$> s !! postID.
Proof.
  destruct (s !! postID) as [p|] eqn:Hp.
  - destruct (decide (UserId p = currentUserId)) as [Hu|Hu].
    + destruct saved.
      * eexists _, _.
        split; [exact (updatePost_saved _ _ _ _ _ _ _ _ Hp Hu)|].
        split; [intros j Hj; by apply lookup_insert_ne|].
        split; [apply dom_insert_lookup_L; by rewrite Hp|].
        by rewrite lookup_insert_eq.
      * eexists _, _.
        split; [exact (updatePost_not_saved _ _ _ _ _ _ _ _ Hp Hu)|].
        by rewrite Hp.
    + eexists _, _.
      split; [exact (updatePost_not_owner _ _ _ _ _ _ _ _ _ Hp Hu)|].
      by rewrite Hp.
  - eexists _, _. split; [exact (updatePost_missing _ _ _ _ _ _ _ _ Hp)|].
    by rewrite Hp.
Qed.

(** X10: what [updatePost] returns is what is stored: after an update
    by the owner whose save succeeds, [getComment] on the same ID
    answers 200 with the record the update returned, for every reader. *)
Theorem updatePost_then_getComment (s : gmap string Post)
    (currentUserId postID : string)
    (title' body' location' : option string) (capacity' : option Z)
    (p : Post) :
  s !! postID = Some p -> UserId p = currentUserId ->
  exists i s',
    updatePost true currentUserId postID title' body' location' capacity' s
    = (Fulfilled (with_result 200 i), s') /\
    forall reader,
      getComment postID reader s' = (Fulfilled (with_result 200 i), s').
Proof.
  intros Hp Hu. eexists _, _.
  split; [exact (updatePost_saved _ _ _ _ _ _ _ _ Hp Hu)|].
  intros reader. apply getComment_found, lookup_insert_eq.
Qed.

(** ** createPost, continued *)

(** X11: what [createPost] returns is what is stored: after a create
    that inserts, the record is owned by the caller, [getComment] on its
    ID answers 200 with the same record for every reader, and every
    other row is as before. *)
Theorem createPost_then_getComment (s : gmap string Post) (g : Generated)
    (userID t b l : string) (c : Z) :
  t <> "" -> b <> "" -> l <> "" ->
  exists i s',
    createPost (Some g) userID (Some t) (Some b) (Some l) (Some c) s
    = (Fulfilled (with_result 200 i), s') /\
    pk i = new_id g /\ UserId (dataValues i) = userID /\
    (forall reader,
        getComment (pk i) reader s' = (Fulfilled (with_result 200 i), s')) /\
    (forall j, j <> pk i -> s' !! j = s !! j).
Proof.
  intros Ht Hb Hl. eexists _, _.
  split; [by apply createPost_inserted|].
  split; [reflexivity|]. split; [reflexivity|]. split.
  - intros reader. apply getComment_found, lookup_insert_eq.
  - intros j Hj. by apply lookup_insert_ne.
Qed.

(** X12: a post created under a key the table did not hold can be
    deleted by its creator and by nobody else: [deletePost] by another
    user answers 401 and changes nothing, and by the creator it answers
    204 and gives back the table from before the create. *)
Theorem createPost_then_deletePost (s : gmap string Post) (g : Generated)
    (userID t b l : string) (c : Z) :
  t <> "" -> b <> "" -> l <> "" -> s !! new_id g = None ->
  exists i s',
    createPost (Some g) userID (Some t) (Some b) (Some l) (Some c) s
    = (Fulfilled (with_result 200 i), s') /\
    (forall other, other <> userID ->
       exists r, deletePost other (pk i) s' = (Fulfilled r, s') /\
                 status r = 401) /\
    (exists r, deletePost userID (pk i) s' = (Fulfilled r, s) /\
               status r = 204).
Proof.
  intros Ht Hb Hl Hfresh. eexists _, _.
  split; [by apply createPost_inserted|]. split.
  - intros other Hne. eexists. split.
    + apply (deletePost_not_owner _ _ _ (created g userID t b l c));
        [apply lookup_insert_eq|]. simpl. congruence.
    + reflexivity.
  - eexists. split.
    + simpl.
      rewrite (deletePost_owner _ userID _ (created g userID t b l c));
        [|apply lookup_insert_eq|reflexivity].
      by rewrite delete_insert_id.
    + reflexivity.
Qed.

(** ** Every answer of the controller *)

(** X13: every answer a method is fulfilled with has one of the
    statuses of that method (200 or 404 for the two reads, 204, 401 or
    404 for [deletePost], 204, 400 or 404 for [vote], 200, 400 or 500
    for [createPost], 200, 401, 404 or 500 for [updatePost]), whatever
    the save and the insert do; an answer from 400 on has a message and
    no result, an answer below 400 has no message; and the two reads
    leave the table unchanged. *)
Theorem responses_have_their_shape (s : gmap string Post) :
  (forall postID lim off r s',
     getComments postID lim off s = (Fulfilled r, s') ->
     s' = s /\ (status r = 200 \/ status r = 404) /\ shaped r) /\
  (forall postID userID r s',
     getComment postID userID s = (Fulfilled r, s') ->
     s' = s /\ (status r = 200 \/ status r = 404) /\ shaped r) /\
  (forall userId postID r s',
     deletePost userId postID s = (Fulfilled r, s') ->
     (status r = 204 \/ status r = 401 \/ status r = 404) /\ shaped r) /\
  (forall saved postID amount r s',
     vote saved postID amount s = (Fulfilled r, s') ->
     (status r = 204 \/ status r = 400 \/ status r = 404) /\ shaped r) /\
  (forall inserted userID t b l c r s',
     createPost inserted userID t b l c s = (Fulfilled r, s') ->
     (status r = 200 \/ status r = 400 \/ status r = 500) /\ shaped r) /\
  (forall saved currentUserId postID t b l c r s',
     updatePost saved currentUserId postID t b l c s = (Fulfilled r, s') ->
     (status r = 200 \/ status r = 401 \/ status r = 404 \/ status r = 500)
     /\ shaped r).
Proof.
  split; [|split; [|split; [|split; [|split]]]].
  - intros k lim off r s' H.
    destruct (getComments_answers _ _ _ _ _ _ H) as [-> [->|[i ->]]].
    + split; [done|]. split; [by right|by apply shaped_with_message].
    + split; [done|]. split; [by left|].
      unfold shaped. cbn [status data message].
      by destruct (decide (400 <= 200)).
  - intros k u r s' H. destruct (s !! k) as [p|] eqn:Hp.
    + rewrite (getComment_found _ _ u _ Hp) in H. injection H as <- <-.
      split; [done|]. split; [by left|by apply shaped_with_result].
    + rewrite (getComment_missing _ _ u Hp) in H. injection H as <- <-.
      split; [done|]. split; [by right|by apply shaped_with_message].
  - intros u k r s' H. destruct (s !! k) as [p|] eqn:Hp.
    + destruct (decide (UserId p = u)) as [Hu|Hu].
      * rewrite (deletePost_owner _ _ _ _ Hp Hu) in H. injection H as <- <-.
        split; [by left|by apply shaped_without_data].
      * rewrite (deletePost_not_owner _ _ _ _ Hp Hu) in H.
        injection H as <- <-.
        split; [by right; left|by apply shaped_with_message].
    + rewrite (deletePost_missing _ u _ Hp) in H. injection H as <- <-.
      split; [by right; right|by apply shaped_with_message].
  - intros saved k a r s' H. destruct (s !! k) as [p|] eqn:Hp.
    + destruct saved.
      * rewrite (vote_saved _ _ a _ Hp) in H. injection H as <- <-.
        split; [by left|by apply shaped_with_result].
      * rewrite (vote_throws _ _ a _ Hp) in H. injection H as <- <-.
        split; [by right; left|by apply shaped_with_message].
    + rewrite (vote_absent _ saved _ a Hp) in H. injection H as <- <-.
      split; [by right; right|by apply shaped_with_message].
  - intros inserted u t b l c r s'. unfold createPost, await, create.
    destruct (_ || _).
    + intros [= <- <-].
      split; [by right; left|by apply shaped_with_message].
    + destruct inserted as [g|]; intros [= <- <-].
      * split; [by left|by apply shaped_with_result].
      * split; [by right; right|by apply shaped_with_message].
  - intros saved u k t b l c r s' H. destruct (s !! k) as [p|] eqn:Hp.
    + destruct (decide (UserId p = u)) as [Hu|Hu].
      * destruct saved.
        -- rewrite (updatePost_saved _ _ _ t b l c _ Hp Hu) in H.
           injection H as <- <-.
           split; [by left|by apply shaped_with_result].
        -- rewrite (updatePost_not_saved _ _ _ t b l c _ Hp Hu) in H.
           injection H as <- <-.
           split; [by right; right; right|by apply shaped_with_message].
      * rewrite (updatePost_not_owner _ saved _ _ t b l c _ Hp Hu) in H.
        injection H as <- <-.
        split; [by right; left|by apply shaped_with_message].
    + rewrite (updatePost_missing _ saved u _ t b l c Hp) in H.
      injection H as <- <-.
      split; [by right; right; left|by apply shaped_with_message].
Qed.

End Controller.

(** ** The form that creates a post: properties *)

Module CreatePostFacts.
Import CreatePost.

Definition is_change (e : Event) : bool :=
  match e with
  | TitleChange _ | BodyChange _ | ThumbnailChange _ | CapacityChange _
  | LocationChange _ | TagsChange _ => true
  | _ => false
  end.

Lemma handle_keeps_capacityError (st : State) (e : Event) :
  is_blur e = false -> capacityError (handle st e) = capacityError st.
Proof.
  destruct e; simpl; try done. intros _. by destruct (disabled st).
Qed.

Lemma run_keeps_capacityError (evs : list Event) (st : State) :
  forallb (fun e => negb (is_blur e)) evs = true ->
  capacityError (run st evs) = capacityError st.
Proof.
  revert st. induction evs as [|e evs IH]; intros st H; [done|].
  simpl in H. apply andb_true_iff in H as [He H]. simpl.
  fold (run (handle st e) evs). rewrite (IH _ H).
  apply handle_keeps_capacityError. by destruct (is_blur e).
Qed.

Lemma handle_keeps_form (st : State) (e : Event) :
  is_change e = false -> form (handle st e) = form st.
Proof.
  destruct e; simpl; try done; intros _.
  - unfold capacityBlur. by destruct (negb _).
  - by destruct (disabled st).
Qed.

Lemma disabled_without_title (st : State) :
  title (form st) = "" -> disabled st = true.
Proof. intros H. unfold disabled. by rewrite H. Qed.

Lemma disabled_without_body (st : State) :
  body (form st) = "" -> disabled st = true.
Proof.
  intros H. unfold disabled. rewrite H. by destruct (String.eqb _ _).
Qed.

Lemma enabled_with_both (st : State) :
  title (form st) <> "" -> body (form st) <> "" -> disabled st = false.
Proof.
  intros Ht Hb. unfold disabled.
  apply String.eqb_neq in Ht, Hb. by rewrite Ht, Hb.
Qed.

Lemma only_title_change_sets_title (st : State) (e : Event) :
  sets_title e = false -> title (form st) = "" -> openPopup st = false ->
  title (form (handle st e)) = "" /\ openPopup (handle st e) = false.
Proof.
  intros He Ht Ho. destruct e; simpl; try done.
  - split; [|done]. simpl in He. apply negb_false_iff in He.
    by apply String.eqb_eq in He.
  - unfold capacityBlur. by destruct (negb _).
  - by rewrite (disabled_without_title _ Ht).
Qed.

Lemma only_body_change_sets_body (st : State) (e : Event) :
  sets_body e = false -> body (form st) = "" -> openPopup st = false ->
  body (form (handle st e)) = "" /\ openPopup (handle st e) = false.
Proof.
  intros He Hb Ho. destruct e; simpl; try done.
  - split; [|done]. simpl in He. apply negb_false_iff in He.
    by apply String.eqb_eq in He.
  - unfold capacityBlur. by destruct (negb _).
  - by rewrite (disabled_without_body _ Hb).
Qed.

(** X14: the capacity error is the verdict of the last blur: after the
    capacity field loses focus, the error is empty when the capacity
    then in the form has only digits and [Only numbers allowed!]
    otherwise, and it stays so through every later event that is not
    another blur, also when the capacity is typed over. *)
Theorem capacityError_from_last_blur (st : State) (evs : list Event) :
  forallb (fun e => negb (is_blur e)) evs = true ->
  capacityError (run (handle st CapacityBlur) evs)
  = if only_digits (capacity (form st)) then ""
    else "Only numbers allowed!".
Proof.
  intros H. rewrite (run_keeps_capacityError _ _ H). simpl.
  unfold capacityBlur. by destruct (only_digits _).
Qed.

(** X15: the capacity error does not hold a post back: with a title and
    a body in the form, typing a capacity that is not all digits and
    leaving the field shows the error, and a click on Create still sends
    the request to [/posts/] with the form as it is, that capacity
    included. *)
Theorem invalid_capacity_is_sent (st : State) (c : string) :
  only_digits c = false ->
  title (form st) <> "" -> body (form st) <> "" ->
  exists st' req,
    run st [CapacityChange c; CapacityBlur] = st' /\
    capacityError st' = "Only numbers allowed!" /\
    createClick st' = Some req /\
    path req = "/posts/" /\ payload req = form st' /\
    capacity (payload req) = c /\
    title (payload req) = title (form st) /\
    body (payload req) = body (form st).
Proof.
  intros Hc Ht Hb.
  assert (run st [CapacityChange c; CapacityBlur]
          = {| form := {| title := title (form st); body := body (form st);
                          file := file (form st); tags := tags (form st);
                          capacity := c; location := location (form st) |};
               openPopup := openPopup st; isOpen := isOpen st;
               capacityError := "Only numbers allowed!" |}) as Hrun.
  { simpl. unfold capacityBlur. simpl. by rewrite Hc. }
  eexists _, (handleSubmit _). split; [exact Hrun|].
  split; [reflexivity|]. split; [|done].
  unfold createClick. by rewrite enabled_with_both.
Qed.

(** X16: nothing is sent and no preview opens before a title and a body
    are typed: from the first render, after any events of which none
    types a title that is not empty, or none types a body that is not
    empty, a click on Create sends nothing and the preview is closed. *)
Theorem nothing_sent_before_title_and_body (evs : list Event) :
  forallb (fun e => negb (sets_title e)) evs = true \/
  forallb (fun e => negb (sets_body e)) evs = true ->
  createClick (run initial evs) = None /\
  openPopup (run initial evs) = false.
Proof.
  intros [H|H].
  - assert (forall st, title (form st) = "" -> openPopup st = false ->
              title (form (run st evs)) = "" /\
              openPopup (run st evs) = false) as Hinv.
    { induction evs as [|e evs IH]; intros st Ht Ho; [done|].
      simpl in H. apply andb_true_iff in H as [He H].
      apply negb_true_iff in He.
      destruct (only_title_change_sets_title st e He Ht Ho) as [Ht' Ho'].
      exact (IH H _ Ht' Ho'). }
    destruct (Hinv initial eq_refl eq_refl) as [Ht Ho]. split; [|done].
    unfold createClick. by rewrite (disabled_without_title _ Ht).
  - assert (forall st, body (form st) = "" -> openPopup st = false ->
              body (form (run st evs)) = "" /\
              openPopup (run st evs) = false) as Hinv.
    { induction evs as [|e evs IH]; intros st Hb Ho; [done|].
      simpl in H. apply andb_true_iff in H as [He H].
      apply negb_true_iff in He.
      destruct (only_body_change_sets_body st e He Hb Ho) as [Hb' Ho'].
      exact (IH H _ Hb' Ho'). }
    destruct (Hinv initial eq_refl eq_refl) as [Hb Ho]. split; [|done].
    unfold createClick. by rewrite (disabled_without_body _ Hb).
Qed.

(** X17: the form is never reset: opening and closing the dialog,
    opening and closing the preview and leaving the capacity field, in
    any number and order, leave every field of the form as it was, and
    so a second click on Create sends the same request as the first. *)
Theorem form_is_never_reset (st : State) (evs : list Event) :
  forallb (fun e => negb (is_change e)) evs = true ->
  form (run st evs) = form st /\
  createClick (run st evs) = createClick st.
Proof.
  intros H.
  assert (form (run st evs) = form st) as Hf.
  { revert st. induction evs as [|e evs IH]; intros st; [done|].
    simpl in H. apply andb_true_iff in H as [He H].
    apply negb_true_iff in He. simpl. fold (run (handle st e) evs).
    rewrite (IH H). by apply handle_keeps_form. }
  split; [exact Hf|].
  unfold createClick, handleSubmit, disabled. by rewrite Hf.
Qed.

Lemma capacityError_from_last_blur_sample :
  capacityError
    (run initial
       [CapacityChange "4x"; CapacityBlur; CapacityChange "40";
        TitleChange "Chess"])
  = "Only numbers allowed!".
Proof.
  apply (capacityError_from_last_blur
           (run initial [CapacityChange "4x"])
           [CapacityChange "40"; TitleChange "Chess"]).
  reflexivity.
Defined.

Lemma invalid_capacity_is_sent_sample :
  exists st' req,
    run (run initial [TitleChange "Chess"; BodyChange "Bring a clock"])
      [CapacityChange "-3"; CapacityBlur] = st' /\
    capacityError st' = "Only numbers allowed!" /\
    createClick st' = Some req /\
    path req = "/posts/" /\ payload req = form st' /\
    capacity (payload req) = "-3" /\
    title (payload req) = "Chess" /\
    body (payload req) = "Bring a clock".
Proof.
  apply (invalid_capacity_is_sent
           (run initial [TitleChange "Chess"; BodyChange "Bring a clock"])
           "-3").
  - reflexivity.
  - discriminate.
  - discriminate.
Defined.

Lemma nothing_sent_before_title_and_body_sample :
  createClick
    (run initial [NewPostClick; BodyChange "Bring a clock"; PreviewClick])
  = None /\
  openPopup
    (run initial [NewPostClick; BodyChange "Bring a clock"; PreviewClick])
  = false.
Proof.
  apply (nothing_sent_before_title_and_body
           [NewPostClick; BodyChange "Bring a clock"; PreviewClick]).
  left. reflexivity.
Defined.

Lemma form_is_never_reset_sample :
  let typed := run initial [TitleChange "Chess"; BodyChange "Bring a clock"] in
  form (run typed [BackClick; NewPostClick; CapacityBlur; PreviewClick])
  = form typed /\
  createClick (run typed [BackClick; NewPostClick; CapacityBlur; PreviewClick])
  = createClick typed.
Proof.
  apply (form_is_never_reset
           (run initial [TitleChange "Chess"; BodyChange "Bring a clock"])
           [BackClick; NewPostClick; CapacityBlur; PreviewClick]).
  reflexivity.
Defined.

End CreatePostFacts.

(** ** The theorems at the sample data *)

Lemma deletePost_other_user_401_sample :
  exists r s',
    deletePost "bob" "p1" one_post = (Fulfilled r, s') /\
    status r = 401 /\ s' = one_post /\ s' !! "p1" = Some alices_post.
Proof.
  apply (deletePost_other_user_401 one_post "alice" "bob" "p1" alices_post).
  - reflexivity.
  - reflexivity.
  - discriminate.
Defined.

Lemma missing_post_404_sample :
  (exists r, getComment "p9" "alice" one_post
             = (Fulfilled r, one_post) /\
     status r = 404 /\
     exists d m, data r = Some d /\ message d = Some m /\ result d = None) /\
  (exists r, getComments sample_unnamed "p9" 10 0 one_post
             = (Fulfilled r, one_post) /\
     status r = 404 /\
     exists d m, data r = Some d /\ message d = Some m /\ result d = None) /\
  (exists r, deletePost "alice" "p9" one_post = (Fulfilled r, one_post) /\
     status r = 404 /\
     exists d m, data r = Some d /\ message d = Some m /\ result d = None).
Proof.
  apply (missing_post_404 sample_unnamed one_post "p9" "alice" 10 0).
  reflexivity.
Defined.

Lemma updatePost_other_user_401_sample :
  exists r s',
    updatePost true "bob" "p1"
      (Some "Chess") None None (Some 12) one_post
    = (Fulfilled r, s') /\
    status r = 401 /\ s' = one_post /\ s' !! "p1" = Some alices_post.
Proof.
  apply (updatePost_other_user_401 one_post true "bob" "p1"
           alices_post (Some "Chess") None None (Some 12)).
  - reflexivity.
  - discriminate.
Defined.

(** C4, as stated, at a post whose score is 2^53: both votes are
    saved and answer 204, the vote of 1 leaves the score at 2^53, the
    number nearest to 2^53 + 1, and the vote of -1 then takes it to
    2^53 - 1, which is not the score before the two votes. *)
Lemma vote_up_then_down_at_2_53 :
  exists r1 s1 r2 s2,
    vote true "p1" Plus1 top_table = (Fulfilled r1, s1) /\
    status r1 = 204 /\
    vote true "p1" Minus1 s1 = (Fulfilled r2, s2) /\
    status r2 = 204 /\
    feedbackScore <$> top_table !! "p1" = Some 9007199254740992 /\
    feedbackScore <$> s1 !! "p1" = Some 9007199254740992 /\
    feedbackScore <$> s2 !! "p1" = Some 9007199254740991 /\
    feedbackScore <$> s2 !! "p1" <> feedbackScore <$> top_table !! "p1".
Proof.
  eexists _, _, _, _.
  split; [apply (vote_saved top_table "p1" Plus1 top_post); reflexivity|].
  split; [reflexivity|].
  split; [apply vote_saved, lookup_insert_eq|].
  split; [reflexivity|]. split; [reflexivity|].
  rewrite !insert_insert_eq, !lookup_insert_eq.
  split; [reflexivity|]. split; [reflexivity|]. discriminate.
Qed.

Lemma vote_up_then_down_sample :
  (forall a, exists r s',
      vote true "p1" a one_post = (Fulfilled r, s') /\
      status r = 204 /\
      feedbackScore <$> s' !! "p1" = Some (7 + amount_value a)) /\
  exists r1 s1 r2 s2,
    vote true "p1" Plus1 one_post = (Fulfilled r1, s1) /\
    status r1 = 204 /\
    vote true "p1" Minus1 s1 = (Fulfilled r2, s2) /\
    status r2 = 204 /\
    feedbackScore <$> s2 !! "p1" = Some 7 /\
    s2 = one_post.
Proof.
  apply (vote_up_then_down one_post "p1" alices_post).
  - reflexivity.
  - unfold MAX_EXACT. simpl. lia.
Defined.


(** C2, as stated, at a call with all four fields supplied: the title is
    supplied and empty, the insert would return a row, and the answer is
    400, neither 500 nor 200, with nothing inserted. *)
Lemma createPost_supplied_empty_title :
  exists r s',
    createPost (Some fresh_row) "alice"
      (Some "") (Some "Bring your own") (Some "Deerfield Hall") (Some 40)
      one_post
    = (Fulfilled r, s') /\
    status r = 400 /\ status r <> 200 /\ status r <> 500 /\
    s' = one_post.
Proof. eexists _, _. split; [reflexivity|]. done. Qed.

Lemma createPost_outcomes_sample :
  (exists r,
     createPost (Some fresh_row) "alice" None (Some "Bring your own")
       (Some "Deerfield Hall") (Some 40) one_post
     = (Fulfilled r, one_post) /\ status r = 400) /\
  (exists r i,
     createPost (Some fresh_row) "bob" (Some "Chess") (Some "Bring a clock")
       (Some "Library") (Some 12) one_post
     = (Fulfilled r, <[pk i := dataValues i]> one_post) /\
     status r = 200 /\
     data r = Some {| result := Some i; count := None; message := None |} /\
     pk i = "p2" /\ UserId (dataValues i) = "bob").
Proof.
  split.
  - destruct (createPost_outcomes one_post (Some fresh_row) "alice" None
                (Some "Bring your own") (Some "Deerfield Hall") (Some 40))
      as [H _].
    destruct (H (or_introl eq_refl)) as (r & Hr & Hst & _). by exists r.
  - destruct (createPost_outcomes one_post (Some fresh_row) "bob"
                (Some "Chess") (Some "Bring a clock") (Some "Library")
                (Some 12)) as [_ H].
    destruct (H "Chess" "Bring a clock" "Library" 12
                eq_refl eq_refl eq_refl eq_refl)
      as (r & i & Hr & Hst & Hd & Hi); [discriminate..|].
    exists r, i. split; [exact Hr|]. split; [exact Hst|].
    split; [exact Hd|]. rewrite Hi. split; reflexivity.
Defined.

Lemma createPost_empty_string_vs_zero_sample :
  createPost (Some fresh_row) "bob" (Some "Chess") (Some "") (Some "Library")
    (Some 12) one_post
  = (Fulfilled (with_message 400 "Missing fields."), one_post) /\
  exists r s',
    createPost (Some fresh_row) "bob" (Some "Chess") (Some "Bring a clock")
      (Some "Library") (Some 0) one_post
    = (Fulfilled r, s') /\
    status r = 200 /\ capacity <$> s' !! "p2" = Some 0.
Proof.
  destruct (createPost_empty_string_vs_zero one_post (Some fresh_row) "bob")
    as [H0 H1].
  split.
  - apply H0. right. left. reflexivity.
  - destruct (H1 "Chess" "Bring a clock" "Library")
      as (r & s' & Hr & _ & _ & H); [discriminate..|].
    destruct (H fresh_row eq_refl) as (Hst & q & _ & Hq & Hc).
    exists r, s'. split; [exact Hr|]. split; [exact Hst|].
    change (new_id fresh_row) with "p2" in Hq. rewrite Hq. simpl. by rewrite Hc.
Defined.

(** C3, as stated, at a call by the owner that supplies the empty string
    as title: the save succeeds, the answer is 200, and the title of the
    record is the prior one, not the supplied value. *)
Lemma updatePost_supplied_empty_title :
  exists q s',
    updatePost true "alice" "p1" (Some "") None None None
      one_post
    = (Fulfilled (with_result 200 {| pk := "p1"; dataValues := q |}), s') /\
    title q = "Board games" /\ title q <> "".
Proof.
  eexists _, _. split.
  - apply (updatePost_saved one_post "alice" "p1"
             (Some "") None None None alices_post); reflexivity.
  - split; [reflexivity|discriminate].
Qed.

Lemma updatePost_merges_supplied_fields_sample :
  (exists q,
     updatePost true "alice" "p1"
       (Some "Chess") None (Some "") (Some 12) one_post
     = (Fulfilled (with_result 200 {| pk := "p1"; dataValues := q |}),
        <["p1" := q]> one_post) /\
     title q = "Chess" /\ body q = "Bring your own" /\
     location q = "Deerfield Hall" /\ capacity q = 12 /\
     feedbackScore q = 7 /\ UserId q = "alice" /\ createdAt q = 1000) /\
  (exists r,
     updatePost false "alice" "p1"
       (Some "Chess") None (Some "") (Some 12) one_post
     = (Fulfilled r, one_post) /\ status r = 500) /\
  (exists r,
     updatePost true "alice" "p9"
       (Some "Chess") None (Some "") (Some 12) one_post
     = (Fulfilled r, one_post) /\ status r = 404).
Proof.
  destruct (updatePost_merges_supplied_fields one_post
              "alice" "p1" (Some "Chess") None (Some "") (Some 12))
    as (Hown & _ & _).
  destruct (Hown alices_post eq_refl eq_refl)
    as ((q & Hq & Ht & Hb & Hl & Hc & Hf & Hu & Hcr) & Hthrow).
  split; [|split].
  - exists q. split; [exact Hq|]. simpl in Ht, Hb, Hl, Hc.
    repeat split; try assumption. apply Hc. discriminate.
  - exact Hthrow.
  - destruct (updatePost_merges_supplied_fields one_post
                "alice" "p9" (Some "Chess") None (Some "") (Some 12))
      as (_ & _ & Hmiss).
    exact (Hmiss true eq_refl).
Defined.

(** C6, as stated, at a call by the owner that supplies no field while
    the save throws: the answer is 500, not 200. *)
Lemma updatePost_nothing_supplied_save_throws :
  exists r s',
    updatePost false "alice" "p1" None None None None one_post
    = (Fulfilled r, s') /\
    status r = 500 /\ status r <> 200.
Proof. eexists _, _. split; [reflexivity|]. done. Qed.

Lemma updatePost_nothing_supplied_sample :
  (exists r s',
     updatePost true "alice" "p1" None None None None one_post
     = (Fulfilled r, s') /\
     s' = one_post /\ s' !! "p1" = Some alices_post /\
     r = with_result 200 {| pk := "p1"; dataValues := alices_post |}) /\
  (exists r s',
     updatePost false "alice" "p1" None None None None one_post
     = (Fulfilled r, s') /\
     s' = one_post /\ s' !! "p1" = Some alices_post /\ status r = 500).
Proof.
  split.
  - apply (updatePost_nothing_supplied one_post true
             "alice" "p1" alices_post); reflexivity.
  - apply (updatePost_nothing_supplied one_post false
             "alice" "p1" alices_post); reflexivity.
Defined.

(** C7, as stated, at a vote whose save succeeds: the answer has status
    204 and its [data.result] holds the saved record. *)
Lemma vote_204_carries_result :
  exists r s' i,
    vote true "p1" Plus1 one_post = (Fulfilled r, s') /\
    status r = 204 /\
    data r = Some {| result := Some i; count := None; message := None |} /\
    feedbackScore (dataValues i) = 8.
Proof.
  eexists _, _, _. split.
  - apply (vote_saved one_post "p1" Plus1 alices_post).
    reflexivity.
  - split; [reflexivity|]. split; reflexivity.
Qed.

Lemma status_204_responses_sample :
  (exists r s',
     deletePost "alice" "p1" one_post = (Fulfilled r, s') /\
     status r = 204 /\ data r = None /\ s' !! "p1" = None) /\
  (exists r s' i,
     vote true "p1" Minus1 one_post = (Fulfilled r, s') /\
     status r = 204 /\
     data r = Some {| result := Some i; count := None; message := None |} /\
     pk i = "p1" /\ s' !! "p1" = Some (dataValues i)).
Proof.
  destruct (status_204_responses sample_unnamed one_post)
    as (Hdel & Hvote & _).
  split.
  - eexists _, _. split; [reflexivity|]. split; [reflexivity|].
    split; [|reflexivity].
    apply (Hdel "alice" "p1" _ _ eq_refl). reflexivity.
  - pose proof (vote_saved one_post "p1" Minus1 alices_post
                  eq_refl) as Hv.
    destruct (Hvote true "p1" Minus1 _ _ Hv eq_refl) as (i & Hd & Hpk & Hs).
    eexists _, _, i. split; [exact Hv|]. split; [reflexivity|].
    split; [exact Hd|]. split; [exact Hpk|exact Hs].
Defined.

(** A capacity of 0 supplied to [updatePost] is falsy in
    [capacity || post.capacity]: the record keeps its prior capacity. *)
Example updatePost_capacity_zero :
  exists q,
    updatePost true "alice" "p1" None None None (Some 0)
      one_post
    = (Fulfilled (with_result 200 {| pk := "p1"; dataValues := q |}),
       <["p1" := q]> one_post) /\
    capacity q = 40.
Proof.
  eexists. split.
  - apply (updatePost_saved one_post "alice" "p1"
             None None None (Some 0) alices_post); reflexivity.
  - reflexivity.
Qed.

Lemma deletePost_by_owner_removes_row_sample :
  exists r s',
    deletePost "alice" "p1" one_post = (Fulfilled r, s') /\
    status r = 204 /\ data r = None /\
    s' !! "p1" = None /\
    (forall j, j <> "p1" -> s' !! j = one_post !! j) /\
    (exists r2, deletePost "alice" "p1" s' = (Fulfilled r2, s') /\
                status r2 = 404) /\
    (forall reader, exists r3,
        getComment "p1" reader s' = (Fulfilled r3, s') /\
        status r3 = 404).
Proof.
  apply (deletePost_by_owner_removes_row one_post
           "alice" "p1" alices_post); reflexivity.
Defined.

Lemma getComment_serves_any_user_sample :
  getComment "p1" "bob" one_post
  = getComment "p1" "alice" one_post /\
  getComment "p1" "bob" one_post
  = (Fulfilled (with_result 200 {| pk := "p1"; dataValues := alices_post |}),
     one_post).
Proof.
  destruct (getComment_serves_any_user one_post
              "p1" "bob" "alice") as [Hsame Hfound].
  split; [exact Hsame|]. apply Hfound. reflexivity.
Defined.

Lemma vote_failures_change_nothing_sample :
  (exists r, vote true "p9" Plus1 one_post
             = (Fulfilled r, one_post) /\
             status r = 404 /\ shaped r) /\
  vote false "p1" Minus1 one_post
  = (Fulfilled (with_message 400 "Could not report post: p1"), one_post).
Proof.
  destruct (vote_failures_change_nothing one_post "p9" Plus1)
    as [Hmiss _].
  destruct (vote_failures_change_nothing one_post "p1" Minus1)
    as [_ Hthrow].
  split; [exact (Hmiss eq_refl true)|exact (Hthrow alices_post eq_refl)].
Defined.

Lemma vote_changes_score_only_sample :
  (exists r s' q,
     vote true "p1" Minus1 one_post = (Fulfilled r, s') /\
     status r = 204 /\
     s' !! "p1" = Some q /\
     feedbackScore q = 6 /\
     title q = "Board games" /\ UserId q = "alice" /\
     dom s' = dom one_post) /\
  (exists r s' q,
     vote true "p1" Plus1 top_table = (Fulfilled r, s') /\
     status r = 204 /\
     s' !! "p1" = Some q /\
     feedbackScore q = 9007199254740992).
Proof.
  split.
  - destruct (vote_changes_score_only one_post "p1" Minus1 alices_post
                eq_refl)
      as (r & s' & q & Hv & Hst & Hq & _ & Hexact & Ht & _ & _ & _ & Hu & _
          & _ & Hdom).
    exists r, s', q. split; [exact Hv|]. split; [exact Hst|].
    split; [exact Hq|]. split.
    + rewrite Hexact; [reflexivity|]. unfold MAX_EXACT. simpl. lia.
    + split; [exact Ht|]. split; [exact Hu|exact Hdom].
  - destruct (vote_changes_score_only top_table "p1" Plus1 top_post
                eq_refl)
      as (r & s' & q & Hv & Hst & Hq & Hnear & _).
    exists r, s', q. split; [exact Hv|]. split; [exact Hst|].
    split; [exact Hq|]. rewrite Hnear. reflexivity.
Defined.

Lemma votes_commute_sample :
  exists r1 s1 r2 s2 r1' s1' r2' s2',
    vote true "p1" Plus1 one_post = (Fulfilled r1, s1) /\
    vote true "p1" Minus1 s1 = (Fulfilled r2, s2) /\
    vote true "p1" Minus1 one_post = (Fulfilled r1', s1') /\
    vote true "p1" Plus1 s1' = (Fulfilled r2', s2') /\
    s2 = s2' /\
    feedbackScore <$> s2 !! "p1" = Some (7 + 1 + -1).
Proof.
  apply (votes_commute one_post "p1" Plus1 Minus1 alices_post).
  - reflexivity.
  - unfold MAX_EXACT. simpl. lia.
Defined.

Lemma updatePost_twice_sample :
  exists r s1,
    updatePost true "alice" "p1"
      (Some "Chess") None None (Some 12) one_post
    = (Fulfilled r, s1) /\
    status r = 200 /\
    updatePost true "alice" "p1"
      (Some "Chess") None None (Some 12) s1
    = (Fulfilled r, s1).
Proof.
  apply (updatePost_twice one_post "alice" "p1"
           (Some "Chess") None None (Some 12) alices_post); reflexivity.
Defined.

Lemma updatePost_then_getComment_sample :
  exists i s',
    updatePost true "alice" "p1"
      (Some "Chess") None None (Some 12) one_post
    = (Fulfilled (with_result 200 i), s') /\
    forall reader,
      getComment "p1" reader s'
      = (Fulfilled (with_result 200 i), s').
Proof.
  apply (updatePost_then_getComment one_post "alice" "p1"
           (Some "Chess") None None (Some 12) alices_post); reflexivity.
Defined.

Lemma createPost_then_getComment_sample :
  exists i s',
    createPost (Some fresh_row) "bob" (Some "Chess") (Some "Bring a clock")
      (Some "Library") (Some 12) one_post
    = (Fulfilled (with_result 200 i), s') /\
    pk i = "p2" /\ UserId (dataValues i) = "bob" /\
    (forall reader,
        getComment (pk i) reader s'
        = (Fulfilled (with_result 200 i), s')) /\
    (forall j, j <> pk i -> s' !! j = one_post !! j).
Proof.
  apply (createPost_then_getComment one_post fresh_row
           "bob" "Chess" "Bring a clock" "Library" 12); discriminate.
Defined.

Lemma createPost_then_deletePost_sample :
  exists i s',
    createPost (Some fresh_row) "bob" (Some "Chess") (Some "Bring a clock")
      (Some "Library") (Some 12) one_post
    = (Fulfilled (with_result 200 i), s') /\
    (forall other, other <> "bob" ->
       exists r, deletePost other (pk i) s' = (Fulfilled r, s') /\
                 status r = 401) /\
    (exists r, deletePost "bob" (pk i) s' = (Fulfilled r, one_post) /\
               status r = 204).
Proof.
  apply (createPost_then_deletePost one_post fresh_row
           "bob" "Chess" "Bring a clock" "Library" 12);
    [discriminate..|reflexivity].
Defined.
